(** * Prime number finder: a shallow embedding of [file.py]

    The script builds a sieve of Eratosthenes ([create_sieve]), filters it to a
    requested range ([extract_primes_from_sieve]), validates the bounds in
    [find_primes_in_range], and reports the result on standard output
    ([print_primes]) and in a file ([save_primes_to_file]).

    Modelling conventions.
    - A Python [int] is a [Z]; a Python [list] of booleans is a [list bool],
      read with [py_getitem] and written with [py_setitem], which raise
      [IndexError] outside the list and wrap negative indices as Python does.
    - A computation that may raise lives in [result]; loops are folds in that
      monad ([for_each]).
    - [int(upper_bound**0.5)] is the floor of the square root, [Z.sqrt]; the
      float computation agrees with it on every bound whose table fits in
      memory.  Memory is unbounded. *)

From Stdlib Require Import ZArith Zdivisibility Lia Ascii String DecimalString.
From Stdlib Require DecimalPos DecimalZ.
From stdpp Require Import base list list_numbers sorting gmap strings.

Local Open Scope Z_scope.

(** ** Exceptions and the error monad *)

Inductive exn : Set :=
| TypeError
| ValueError
| IndexError.

Inductive result (A : Type) : Type :=
| Ok (a : A)
| Raise (e : exn).

Arguments Ok {A} a.
Arguments Raise {A} e.

#[export] Instance result_ret : MRet result := λ A a, Ok a.

#[export] Instance result_bind : MBind result := λ A B k m,
  match m with
  | Ok a => k a
  | Raise e => Raise e
  end.

(** [for x in xs: body], threading the loop's state. *)
Fixpoint for_each {A S : Type} (xs : list A) (body : A → S → result S) (s : S)
  : result S :=
  match xs with
  | [] => Ok s
  | x :: xs' => s' ← body x s; for_each xs' body s'
  end.

(** ** Python values reaching [find_primes_in_range] *)

Inductive pyval : Type :=
| PyInt (z : Z)
| PyBool (b : bool)
| PyStr (s : string)
| PyNone.

(** [isinstance(v, int)]: [bool] is a subclass of [int]. *)
Definition isinstance_int (v : pyval) : bool :=
  match v with
  | PyInt _ | PyBool _ => true
  | PyStr _ | PyNone => false
  end.

(** The integer an [int] instance stands for ([True] is 1, [False] is 0). *)
Definition int_value (v : pyval) : Z :=
  match v with
  | PyInt z => z
  | PyBool b => if b then 1 else 0
  | PyStr _ | PyNone => 0
  end.

(** ** List primitives *)

(** [range(lo, hi)] *)
Definition py_range (lo hi : Z) : list Z := seqZ lo (hi - lo).

(** [range(start, stop, step)] for a positive [step]; the script's only use has
    [step = i] with [2 <= i]. *)
Definition py_range_step (start stop step : Z) : list Z :=
  (λ t, start + t * step) <$> seqZ 0 ((stop - start + step - 1) `div` step).

(** [len(l)] *)
Abbreviation len l := (Z.of_nat (length l)).

(** Position denoted by index [i] in a list of length [n], if any. *)
Definition py_index (n : nat) (i : Z) : result nat :=
  if bool_decide (0 ≤ i < Z.of_nat n) then Ok (Z.to_nat i)
  else if bool_decide (- Z.of_nat n ≤ i < 0) then Ok (Z.to_nat (i + Z.of_nat n))
  else Raise IndexError.

(** [l[i]] *)
Definition py_getitem {A : Type} (l : list A) (i : Z) : result A :=
  k ← py_index (length l) i;
  match l !! k with
  | Some a => Ok a
  | None => Raise IndexError
  end.

(** [l[i] = v] *)
Definition py_setitem {A : Type} (l : list A) (i : Z) (v : A) : result (list A) :=
  k ← py_index (length l) i;
  Ok (<[k := v]> l).

(** ** [create_sieve] *)

(** [int(upper_bound**0.5)] *)
Definition int_sqrt (upper_bound : Z) : Z := Z.sqrt upper_bound.

(** The inner loop: [for j in range(i*i, upper_bound + 1, i): sieve[j] = False] *)
Definition mark_multiples (upper_bound i : Z) (sieve : list bool)
  : result (list bool) :=
  for_each (py_range_step (i * i) (upper_bound + 1) i)
           (λ j sieve, py_setitem sieve j false) sieve.

(** The body of the outer loop. *)
Definition sieve_body (upper_bound i : Z) (sieve : list bool)
  : result (list bool) :=
  b ← py_getitem sieve i;
  if b : bool then mark_multiples upper_bound i sieve else Ok sieve.

Definition create_sieve (upper_bound : Z) : result (list bool) :=
  if bool_decide (upper_bound < 2) then Ok []
  else
    let sieve := replicate (Z.to_nat (upper_bound + 1)) true in
    sieve ← py_setitem sieve 0 false;
    sieve ← py_setitem sieve 1 false;
    for_each (py_range 2 (int_sqrt upper_bound + 1)) (sieve_body upper_bound) sieve.

(** ** [extract_primes_from_sieve] *)

(** [[i for i in xs if sieve[i]]] *)
Fixpoint select_marked (sieve : list bool) (xs : list Z) : result (list Z) :=
  match xs with
  | [] => Ok []
  | i :: xs' =>
      b ← py_getitem sieve i;
      rest ← select_marked sieve xs';
      Ok (if b : bool then i :: rest else rest)
  end.

Definition extract_primes_from_sieve (sieve : list bool) (lower_bound upper_bound : Z)
  : result (list Z) :=
  let effective_lower := Z.max 2 lower_bound in
  select_marked sieve
    (py_range effective_lower (Z.min (len sieve) (upper_bound + 1))).

(** ** [find_primes_in_range] *)

Definition find_primes_in_range (lower_bound upper_bound : pyval) : result (list Z) :=
  if negb (isinstance_int lower_bound) || negb (isinstance_int upper_bound)
  then Raise TypeError
  else
    let lo := int_value lower_bound in
    let hi := int_value upper_bound in
    if bool_decide (lo > hi) then Raise ValueError
    else if bool_decide (hi < 2) then Ok []
    else
      sieve ← create_sieve hi;
      extract_primes_from_sieve sieve lo hi.

(** ** Text formatting *)

(** The newline character. *)
Definition nl : string := String (Ascii.ascii_of_nat 10) EmptyString.

(** [str(z)] for an [int]. *)
Definition str_int (z : Z) : string := NilZero.string_of_int (Z.to_int z).

(** [n] spaces. *)
Fixpoint spaces (n : nat) : string :=
  match n with
  | O => EmptyString
  | S n' => String " "%char (spaces n')
  end.

(** [f"{p:6d}"]: the decimal text of [p], padded on the left with spaces up to
    a width of 6. *)
Definition format_6d (p : Z) : string :=
  let digits := str_int p in
  spaces (6 - String.length digits) +:+ digits.

(** [sep.join(parts)] *)
Fixpoint join (sep : string) (parts : list string) : string :=
  match parts with
  | [] => EmptyString
  | [x] => x
  | x :: rest => x +:+ sep +:+ join sep rest
  end.

(** [primes[i:j]] for [0 <= i <= j]. *)
Definition py_slice {A : Type} (l : list A) (i j : Z) : list A :=
  take (Z.to_nat j - Z.to_nat i) (drop (Z.to_nat i) l).

(** [" ".join(f"{p:6d}" for p in row)] *)
Definition format_row (row : list Z) : string :=
  join " " (format_6d <$> row).

(** [repr(primes)] for a list of [int]. *)
Definition repr_list (primes : list Z) : string :=
  "[" +:+ join ", " (str_int <$> primes) +:+ "]".

(** ** [print_primes] *)

(** Standard output is the text written so far; [print(s)] appends [s] and a
    newline. *)
Definition print (s : string) (out : string) : string := out +:+ s +:+ nl.

(** [format_type == lit] for a string literal [lit]. *)
Definition py_eq_str (v : pyval) (lit : string) : bool :=
  match v with
  | PyStr s => bool_decide (s = lit)
  | _ => false
  end.

Definition print_primes (primes : list Z) (format_type : pyval) (out : string)
  : string :=
  match primes with
  | [] => print "No prime numbers found in the given range." out
  | _ :: _ =>
      if py_eq_str format_type "list" then
        print ("Found " +:+ str_int (len primes) +:+ " prime numbers: "
                 +:+ join ", " (str_int <$> primes)) out
      else if py_eq_str format_type "columns" then
        let out := print ("Found " +:+ str_int (len primes) +:+ " prime numbers:") out in
        fold_left (λ out i, print (format_row (py_slice primes i (i + 10))) out)
                  (py_range_step 0 (len primes) 10) out
      else
        print ("Found " +:+ str_int (len primes) +:+ " prime numbers: "
                 +:+ repr_list primes) out
  end.

(** ** [save_primes_to_file] *)

(** The file system maps a path to the text of the file there. *)
Abbreviation filesystem := (gmap string string).

(** [os.path.exists(filename)] *)
Definition path_exists (filename : string) (fs : filesystem) : bool :=
  bool_decide (is_Some (fs !! filename)).

(** [os.remove(filename)] *)
Definition os_remove (filename : string) (fs : filesystem) : filesystem :=
  delete filename fs.

(** [open(filename, 'w')]: creates the file, or truncates it. *)
Definition open_w (filename : string) (fs : filesystem) : filesystem :=
  <[filename := EmptyString]> fs.

(** [file.write(s)] on the file opened at [filename]. *)
Definition file_write (filename : string) (s : string) (fs : filesystem) : filesystem :=
  alter (λ text, text +:+ s) filename fs.

Definition save_primes_to_file (primes : list Z) (filename : string) (fs : filesystem)
  : filesystem :=
  let fs := if path_exists filename fs then os_remove filename fs else fs in
  let fs := open_w filename fs in
  let fs := file_write filename
              ("Found " +:+ str_int (len primes)
                 +:+ " prime numbers between 1 and 250: " +:+ nl +:+ nl) fs in
  fold_left (λ fs i, file_write filename
                       (format_row (py_slice primes i (i + 10)) +:+ nl) fs)
            (py_range_step 0 (len primes) 10) fs.

(** ** The range query over an object store

    In Python the table is a mutable object that [create_sieve] allocates and
    then updates in place.  This second embedding keeps every list object in a
    store and passes the table by reference, so that what a call can read
    from, or leave in, the state shared between calls is explicit. *)

Module Store.

(** The list objects allocated so far; a reference is a position. *)
Abbreviation store := (list (list bool)).
Abbreviation ref := nat.

(** A new list object. *)
Definition alloc (l : list bool) (h : store) : ref * store :=
  (length h, h ++ [l]).

(** [sieve[i]] *)
Definition getitem (sieve : ref) (i : Z) (h : store) : result bool :=
  py_getitem (h !!! sieve) i.

(** [sieve[i] = v] *)
Definition setitem (sieve : ref) (i : Z) (v : bool) (h : store) : result store :=
  l ← py_setitem (h !!! sieve) i v;
  Ok (<[sieve := l]> h).

Definition mark_multiples (upper_bound i : Z) (sieve : ref) (h : store)
  : result store :=
  for_each (py_range_step (i * i) (upper_bound + 1) i)
           (λ j h, setitem sieve j false h) h.

Definition sieve_body (upper_bound : Z) (sieve : ref) (i : Z) (h : store)
  : result store :=
  b ← getitem sieve i h;
  if b : bool then mark_multiples upper_bound i sieve h else Ok h.

Definition create_sieve (upper_bound : Z) (h : store) : result (ref * store) :=
  if bool_decide (upper_bound < 2) then Ok (alloc [] h)
  else
    let '(sieve, h) := alloc (replicate (Z.to_nat (upper_bound + 1)) true) h in
    h ← setitem sieve 0 false h;
    h ← setitem sieve 1 false h;
    h ← for_each (py_range 2 (int_sqrt upper_bound + 1))
                 (sieve_body upper_bound sieve) h;
    Ok (sieve, h).

Fixpoint select_marked (sieve : ref) (xs : list Z) (h : store) : result (list Z) :=
  match xs with
  | [] => Ok []
  | i :: xs' =>
      b ← getitem sieve i h;
      rest ← select_marked sieve xs' h;
      Ok (if b : bool then i :: rest else rest)
  end.

Definition extract_primes_from_sieve (sieve : ref) (lower_bound upper_bound : Z)
    (h : store) : result (list Z) :=
  let effective_lower := Z.max 2 lower_bound in
  select_marked sieve
    (py_range effective_lower
              (Z.min (len (h !!! sieve)) (upper_bound + 1))) h.

(** The call returns its value and the store it leaves behind. *)
Definition find_primes_in_range (lower_bound upper_bound : pyval) (h : store)
  : result (list Z * store) :=
  if negb (isinstance_int lower_bound) || negb (isinstance_int upper_bound)
  then Raise TypeError
  else
    let lo := int_value lower_bound in
    let hi := int_value upper_bound in
    if bool_decide (lo > hi) then Raise ValueError
    else if bool_decide (hi < 2) then Ok ([], h)
    else
      '(sieve, h) ← create_sieve hi h;
      primes ← extract_primes_from_sieve sieve lo hi h;
      Ok (primes, h).

(** What the caller observes of a call: the value returned or the exception
    raised. *)
Definition outcome {A : Type} (r : result (A * store)) : result A :=
  p ← r; Ok p.1.

End Store.

(** ** Reference notions the specification speaks of *)

(** [i] has no integer divisor [d] with [2 <= d <= sqrt(i)]; for an integer
    [d >= 0] the bound [d <= sqrt(i)] says [d * d <= i]. *)
Definition no_small_divisor (i : Z) : Prop :=
  ∀ d, 2 ≤ d → d * d ≤ i → ¬ (d | i).

(** What the table holds once the candidates below [k] have been treated. *)
Definition sieved (upper_bound k : Z) (s : list bool) : Prop :=
  length s = Z.to_nat (upper_bound + 1) ∧
  ∀ m, 0 ≤ m ≤ upper_bound →
    ∃ b : bool, s !! Z.to_nat m = Some b ∧
      (b = true ↔ 2 ≤ m ∧ ∀ d, 2 ≤ d < k → d * d ≤ m → ¬ (d | m)).

(** Trial division, as a program. *)
Definition trial_division (i : Z) : bool :=
  forallb (λ d, negb (i mod d =? 0)) (py_range 2 (Z.sqrt i + 1)).

(** A strictly increasing list of integers. *)
Fixpoint strictly_increasing (l : list Z) : Prop :=
  match l with
  | [] => True
  | x :: rest =>
      match rest with
      | [] => True
      | y :: _ => x < y ∧ strictly_increasing rest
      end
  end.

(** The range extractor in the specification's words: the indices from the
    effective lower bound [max(2, lo)] to the effective upper bound
    [min(table length - 1, hi)], both included, that the table marks. *)
Definition extract_spec (table : list bool) (lo hi : Z) : list Z :=
  let effective_lower := Z.max 2 lo in
  let effective_upper := Z.min (len table - 1) hi in
  filter (λ i, table !! Z.to_nat i = Some true)
         (seqZ effective_lower (effective_upper - effective_lower + 1)).

(** The range query without its short cut for [hi < 2]. *)
Definition full_pipeline (lo hi : Z) : result (list Z) :=
  sieve ← create_sieve hi;
  extract_primes_from_sieve sieve lo hi.

(** The rows of at most [n] values a list is cut into. *)
Fixpoint rows_of (n : nat) (fuel : nat) (l : list Z) : list (list Z) :=
  match fuel with
  | O => []
  | S fuel' =>
      match l with
      | [] => []
      | _ :: _ => take n l :: rows_of n fuel' (drop n l)
      end
  end.

(** The lines of a text, put end to end. *)
Definition concat_str (lines : list string) : string :=
  foldr String.append EmptyString lines.

(** ** [main] *)

(** The script's entry point, over the console text and the file system. *)
Definition main (out : string) (fs : filesystem) : result (string * filesystem) :=
  let lower_bound := 1 in
  let upper_bound := 250 in
  let out := print ("Finding prime numbers between " +:+ str_int lower_bound
                      +:+ " and " +:+ str_int upper_bound) out in
  primes ← find_primes_in_range (PyInt lower_bound) (PyInt upper_bound);
  let out := print_primes primes (PyStr "columns") out in
  let fs := save_primes_to_file primes "results.txt" fs in
  let out := print (nl +:+ "Results have been saved to results.txt") out in
  Ok (out, fs).

(** ** Further reference notions *)

(** Primality of a table index, by trial division. *)
Definition is_prime_entry (i : Z) : bool :=
  bool_decide (2 ≤ i) && trial_division i.

(** The row lines shared by the console's column format and the report file. *)
Definition rows_text (primes : list Z) : string :=
  concat_str ((λ row, format_row row +:+ nl) <$> rows_of 10 (length primes) primes).

(** The whole text of the report file. *)
Definition report_text (primes : list Z) : string :=
  "Found " +:+ str_int (len primes) +:+ " prime numbers between 1 and 250: " +:+ nl
    +:+ nl +:+ rows_text primes.

(** ** Reading a text back

    The script has no reader for its report; these notions serve to show that
    the report determines the list it was written from. *)

(** No white space occurs in [s]. *)
Fixpoint blank_free (s : string) : bool :=
  match s with
  | EmptyString => true
  | String a s' => negb (Ascii.is_space a) && blank_free s'
  end.

(** The words of [s], its maximal runs without white space, after a word
    [cur] already begun. *)
Fixpoint tokens_from (cur : string) (s : string) : list string :=
  match s with
  | EmptyString => match cur with EmptyString => [] | _ => [cur] end
  | String a s' =>
      if Ascii.is_space a then
        match cur with
        | EmptyString => tokens_from EmptyString s'
        | _ => cur :: tokens_from EmptyString s'
        end
      else tokens_from (cur +:+ String a EmptyString) s'
  end.

Definition tokens (s : string) : list string := tokens_from EmptyString s.

(** ** Basic facts about the primitives *)

Lemma py_index_in_range (n : nat) (i : Z) :
  0 ≤ i < Z.of_nat n → py_index n i = Ok (Z.to_nat i).
Proof. intros Hi. unfold py_index. rewrite bool_decide_eq_true_2; done. Qed.

Lemma py_setitem_in_range {A : Type} (l : list A) (i : Z) (v : A) :
  0 ≤ i < Z.of_nat (length l) → py_setitem l i v = Ok (<[Z.to_nat i := v]> l).
Proof. intros Hi. unfold py_setitem. rewrite py_index_in_range; done. Qed.

Lemma py_getitem_in_range {A : Type} (l : list A) (i : Z) :
  0 ≤ i < Z.of_nat (length l) →
  ∃ a, l !! Z.to_nat i = Some a ∧ py_getitem l i = Ok a.
Proof.
  intros Hi. unfold py_getitem. rewrite py_index_in_range by done. simpl.
  destruct (lookup_lt_is_Some_2 l (Z.to_nat i)) as [a Ha]; [lia|].
  exists a. by rewrite Ha.
Qed.

Lemma py_getitem_lookup {A : Type} (l : list A) (i : Z) (a : A) :
  0 ≤ i → l !! Z.to_nat i = Some a → py_getitem l i = Ok a.
Proof.
  intros Hi Ha. pose proof (lookup_lt_Some _ _ _ Ha).
  destruct (py_getitem_in_range l i) as (a' & Ha' & ->); [lia|]. congruence.
Qed.

Lemma for_each_app {A S : Type} (xs ys : list A) (body : A → S → result S) (s : S) :
  for_each (xs ++ ys) body s = (s' ← for_each xs body s; for_each ys body s').
Proof.
  revert s. induction xs as [|x xs IH]; intros s; simpl; [done|].
  destruct (body x s); simpl; [apply IH | done].
Qed.

(** ** Ranges *)

Lemma elem_of_py_range (lo hi k : Z) : k ∈ py_range lo hi ↔ lo ≤ k < hi.
Proof. unfold py_range. rewrite elem_of_seqZ. lia. Qed.

Lemma py_range_snoc (lo : Z) (n : nat) :
  py_range lo (lo + Z.of_nat (S n)) = py_range lo (lo + Z.of_nat n) ++ [lo + Z.of_nat n].
Proof.
  unfold py_range.
  replace (lo + Z.of_nat (S n) - lo) with (Z.of_nat (S n)) by lia.
  replace (lo + Z.of_nat n - lo) with (Z.of_nat n) by lia.
  apply seqZ_S.
Qed.

Lemma elem_of_py_range_step (start stop step j : Z) :
  0 < step →
  j ∈ py_range_step start stop step ↔
  ∃ t, 0 ≤ t ∧ j = start + t * step ∧ j < stop.
Proof.
  intros Hstep. unfold py_range_step. rewrite list_elem_of_fmap.
  setoid_rewrite elem_of_seqZ. split.
  - intros (t & -> & Ht). exists t. split; [lia|]. split; [done|].
    assert (t + 1 ≤ (stop - start + step - 1) `div` step) as Hle by lia.
    pose proof (Z.mul_div_le (stop - start + step - 1) step Hstep). nia.
  - intros (t & Ht & -> & Hlt). exists t. split; [done|]. split; [lia|].
    assert (t + 1 ≤ (stop - start + step - 1) `div` step); [|lia].
    apply Z.div_le_lower_bound; [done|]. nia.
Qed.

(** The inner loop visits the multiples of [i] from [i * i] up to the bound. *)
Lemma elem_of_multiples (upper_bound i j : Z) :
  0 < i →
  j ∈ py_range_step (i * i) (upper_bound + 1) i ↔
  i * i ≤ j ≤ upper_bound ∧ (i | j).
Proof.
  intros Hi. rewrite elem_of_py_range_step by done. split.
  - intros (t & Ht & -> & Hlt). split; [nia|].
    exists (i + t). lia.
  - intros ([Hlo Hhi] & q & ->). exists (q - i). split; [nia|]. split; lia.
Qed.

(** ** The sieve *)

(** Striking out the positions [js], all inside the table, keeps the length and
    clears exactly those entries. *)
Lemma strike_out (js : list Z) (s : list bool) :
  Forall (λ j, 0 ≤ j < Z.of_nat (length s)) js →
  ∃ s', for_each js (λ j s, py_setitem s j false) s = Ok s' ∧
        length s' = length s ∧
        ∀ m : Z, 0 ≤ m →
          s' !! Z.to_nat m = (λ b, b && bool_decide (m ∉ js)) <$> s !! Z.to_nat m.
Proof.
  revert s. induction js as [|j js IH]; intros s Hjs.
  - exists s. split; [done|]. split; [done|]. intros m _.
    destruct (s !! Z.to_nat m) as [b|]; simpl; [|done].
    by rewrite andb_true_r.
  - apply Forall_cons in Hjs as [Hj Hjs]. simpl.
    rewrite py_setitem_in_range by done. simpl.
    destruct (IH (<[Z.to_nat j := false]> s)) as (s' & Hrun & Hlen & Hs').
    { by rewrite length_insert. }
    exists s'. split; [done|]. split; [by rewrite Hlen, length_insert|].
    intros m Hm. rewrite Hs' by done.
    destruct (decide (m = j)) as [->|Hne].
    + rewrite list_lookup_insert_eq by lia.
      destruct (lookup_lt_is_Some_2 s (Z.to_nat j)) as [b ->]; [lia|]. simpl.
      rewrite (bool_decide_eq_false_2 (j ∉ j :: js)) by (rewrite elem_of_cons; tauto).
      by rewrite andb_false_r.
    + rewrite list_lookup_insert_ne by lia.
      destruct (s !! Z.to_nat m) as [b|]; simpl; [|done].
      do 2 f_equal. apply bool_decide_ext. rewrite elem_of_cons. tauto.
Qed.

Lemma sieved_init (upper_bound : Z) :
  2 ≤ upper_bound →
  sieved upper_bound 2
    (<[1%nat := false]> (<[0%nat := false]> (replicate (Z.to_nat (upper_bound + 1)) true))).
Proof.
  intros HN. split; [by rewrite !length_insert, length_replicate|].
  intros m Hm.
  destruct (decide (m = 0)) as [->|H0]; [|destruct (decide (m = 1)) as [->|H1]].
  - exists false. split; [|split; [done|lia]].
    change (Z.to_nat 0) with 0%nat. rewrite list_lookup_insert_ne by done.
    apply list_lookup_insert_eq. rewrite length_replicate. lia.
  - exists false. split; [|split; [done|lia]].
    change (Z.to_nat 1) with 1%nat.
    apply list_lookup_insert_eq. rewrite length_insert, length_replicate. lia.
  - exists true. split; [|split; [intros _; split; [lia|intros; lia]|done]].
    rewrite !list_lookup_insert_ne by lia.
    apply lookup_replicate_2. lia.
Qed.

(** One turn of the outer loop. *)
Lemma sieved_step (upper_bound k : Z) (s : list bool) :
  2 ≤ k → k * k ≤ upper_bound →
  sieved upper_bound k s →
  ∃ s', sieve_body upper_bound k s = Ok s' ∧ sieved upper_bound (k + 1) s'.
Proof.
  intros Hk Hkk [Hlen Hs]. unfold sieve_body.
  destruct (Hs k) as (b & Hb & Hbk); [nia|].
  rewrite (py_getitem_lookup s k b) by (done || lia). simpl.
  destruct b.
  - (* [k] is unmarked: its multiples from [k * k] are struck out *)
    destruct (strike_out (py_range_step (k * k) (upper_bound + 1) k) s)
      as (s' & Hrun & Hlen' & Hs').
    { apply Forall_forall. intros j Hj%elem_of_multiples; [|lia].
      rewrite Hlen. nia. }
    exists s'. split; [done|]. split; [congruence|].
    intros m Hm. destruct (Hs m Hm) as (b & Hbm & Hspec).
    exists (b && bool_decide (m ∉ py_range_step (k * k) (upper_bound + 1) k)).
    split; [rewrite Hs' by lia; by rewrite Hbm|].
    rewrite andb_true_iff, bool_decide_eq_true, Hspec, elem_of_multiples by lia.
    split.
    + intros [[Hm2 Hd] Hnot]. split; [done|]. intros d Hd2 Hdd Hdiv.
      destruct (decide (d = k)) as [->|Hne].
      * apply Hnot. split; [lia|done].
      * apply (Hd d); [lia|done..].
    + intros [Hm2 Hd]. split; [split; [done|]|].
      * intros d Hd2. apply Hd. lia.
      * intros [[Hlo _] Hdiv]. apply (Hd k); [lia|done..].
  - (* [k] is marked: some smaller [d] divides it, and so its multiples *)
    exists s. split; [done|]. split; [done|].
    intros m Hm. destruct (Hs m Hm) as (b & Hbm & Hspec).
    exists b. split; [done|]. rewrite Hspec. split.
    + intros [Hm2 Hd]. split; [done|]. intros d Hd2 Hdd Hdiv.
      destruct (decide (d = k)) as [->|Hne]; [|apply (Hd d); [lia|done..]].
      assert (true = false) as [=]. symmetry. apply Hbk. split; [done|].
      intros d' Hd'1 Hd'2 Hd'3. apply (Hd d'); [lia|nia|]. by etrans.
    + intros [Hm2 Hd]. split; [done|]. intros d Hd2. apply Hd. lia.
Qed.

(** The outer loop, run over the candidates [2, ..., 2 + n - 1]. *)
Lemma sieved_loop (upper_bound : Z) (n : nat) (s : list bool) :
  2 + Z.of_nat n ≤ int_sqrt upper_bound + 1 →
  sieved upper_bound 2 s →
  ∃ s', for_each (py_range 2 (2 + Z.of_nat n)) (sieve_body upper_bound) s = Ok s' ∧
        sieved upper_bound (2 + Z.of_nat n) s'.
Proof.
  intros Hn Hs. induction n as [|n IH].
  - exists s. split; [done|]. by rewrite Z.add_0_r.
  - destruct IH as (s1 & Hrun & Hs1); [lia|].
    destruct (sieved_step upper_bound (2 + Z.of_nat n) s1) as (s2 & Hbody & Hs2);
      [lia| |done|].
    { unfold int_sqrt in Hn.
      assert (0 ≤ upper_bound) as H0.
      { destruct (Z.le_gt_cases 0 upper_bound) as [|Hneg]; [done|].
        rewrite Z.sqrt_neg in Hn; lia. }
      destruct (Z.sqrt_spec upper_bound H0) as [Hlow _].
      etrans; [|exact Hlow]. apply Z.mul_le_mono_nonneg; lia. }
    exists s2. rewrite py_range_snoc, for_each_app, Hrun. simpl.
    rewrite Hbody. split; [done|].
    by replace (2 + Z.of_nat (S n)) with (2 + Z.of_nat n + 1) by lia.
Qed.

Lemma create_sieve_sieved (upper_bound : Z) :
  2 ≤ upper_bound →
  ∃ s, create_sieve upper_bound = Ok s ∧
       sieved upper_bound (int_sqrt upper_bound + 1) s.
Proof.
  intros HN. unfold create_sieve. rewrite bool_decide_eq_false_2 by lia.
  rewrite py_setitem_in_range by (rewrite length_replicate; lia). simpl.
  rewrite py_setitem_in_range by (rewrite length_insert, length_replicate; lia).
  simpl. change (Z.to_nat 0) with 0%nat. change (Z.to_nat 1) with 1%nat.
  assert (1 ≤ int_sqrt upper_bound) as Hsqrt.
  { unfold int_sqrt. apply Z.sqrt_le_square; lia. }
  pose proof (sieved_loop upper_bound (Z.to_nat (int_sqrt upper_bound - 1)) _
                ltac:(lia) (sieved_init upper_bound HN)) as (s & Hrun & Hs).
  replace (2 + Z.of_nat (Z.to_nat (int_sqrt upper_bound - 1)))
    with (int_sqrt upper_bound + 1) in * by lia.
  by exists s.
Qed.

(** ** Trial division and primality *)

Lemma no_small_divisor_prime (i : Z) : 2 ≤ i → no_small_divisor i ↔ Z.prime i.
Proof.
  intros Hi. split.
  - intros Hno. split; [lia|]. intros n Hn [q Hq].
    destruct (Z.le_gt_cases n q).
    + apply (Hno n); [lia|nia|]. by exists q.
    + apply (Hno q); [nia|nia|]. exists n. lia.
  - intros [_ Hp] d Hd Hdd Hdiv. apply (Hp d); [nia|done].
Qed.

Lemma trial_division_spec (i : Z) : 0 ≤ i → trial_division i = true ↔ no_small_divisor i.
Proof.
  intros Hi. unfold trial_division, no_small_divisor.
  rewrite forallb_forall. setoid_rewrite <- list_elem_of_In.
  setoid_rewrite elem_of_py_range. setoid_rewrite negb_true_iff.
  setoid_rewrite Z.eqb_neq.
  assert (∀ d, 2 ≤ d → (d * d ≤ i ↔ d < Z.sqrt i + 1)) as Hbound.
  { intros d Hd. rewrite (Z.sqrt_le_square i d) by lia. lia. }
  split.
  - intros H d Hd Hdd Hdiv. apply (H d); [split; [done|by apply Hbound]|].
    apply Z.mod_divide; [lia|done].
  - intros H d [Hd Hlt] Hmod. apply (H d Hd); [by apply Hbound|].
    apply Z.mod_divide; [lia|done].
Qed.

(** ** Claims about [create_sieve] *)

(** C1. For every bound [N >= 2] and every [i] with [2 <= i <= N], the table
    returned by [create_sieve N] holds [True] at [i] if and only if [i] has no
    integer divisor [d] with [2 <= d <= sqrt(i)], that is, if and only if [i]
    is prime; the entry is what trial division computes. *)
Theorem create_sieve_marks_primes (N i : Z) :
  2 ≤ N → 2 ≤ i ≤ N →
  ∃ table b,
    create_sieve N = Ok table ∧
    py_getitem table i = Ok b ∧
    (b = true ↔ no_small_divisor i) ∧
    (b = true ↔ Z.prime i) ∧
    b = trial_division i.
Proof.
  intros HN Hi.
  destruct (create_sieve_sieved N HN) as (table & Hrun & Hlen & Htable).
  destruct (Htable i ltac:(lia)) as (b & Hb & Hspec).
  assert (b = true ↔ no_small_divisor i) as Hno.
  { rewrite Hspec. unfold no_small_divisor. split.
    - intros [_ Hd] d Hd2 Hdd. apply Hd; [|done]. split; [done|].
      unfold int_sqrt. assert (d ≤ Z.sqrt N); [|lia].
      apply Z.sqrt_le_square; [lia..|]. nia.
    - intros Hd. split; [lia|]. intros d [Hd2 _]. by apply Hd. }
  exists table, b. split; [done|]. split; [apply py_getitem_lookup; [lia|done]|].
  split; [done|]. split; [by rewrite Hno, no_small_divisor_prime by lia|].
  apply eq_true_iff_eq. rewrite Hno. symmetry. apply trial_division_spec. lia.
Qed.

Lemma create_sieve_marks_primes_witness :
  2 ≤ 30 ∧ 2 ≤ 7 ≤ 30 ∧
  ∃ table b,
    create_sieve 30 = Ok table ∧
    py_getitem table 7 = Ok b ∧
    (b = true ↔ no_small_divisor 7) ∧
    (b = true ↔ Z.prime 7) ∧
    b = trial_division 7.
Proof.
  split; [lia|]. split; [lia|]. apply (create_sieve_marks_primes 30 7); lia.
Defined.

Example sieve_30 :
  (s ← create_sieve 30; extract_primes_from_sieve s 0 30)
  = Ok [2; 3; 5; 7; 11; 13; 17; 19; 23; 29].
Proof. vm_compute. reflexivity. Qed.

(** C2. [create_sieve N] raises nothing; the table it returns is empty when
    [N < 2] (negative bounds included), and otherwise has [N + 1] entries, of
    which those at 0 and 1 are [False]. *)
Theorem create_sieve_shape (N : Z) :
  ∃ table,
    create_sieve N = Ok table ∧
    (N < 2 → len table = 0) ∧
    (2 ≤ N → len table = N + 1 ∧
             py_getitem table 0 = Ok false ∧ py_getitem table 1 = Ok false).
Proof.
  destruct (Z.lt_ge_cases N 2) as [Hlt|Hge].
  - exists []. unfold create_sieve. rewrite bool_decide_eq_true_2 by done.
    split; [done|]. split; [done|lia].
  - destruct (create_sieve_sieved N Hge) as (table & Hrun & Hlen & Htable).
    exists table. split; [done|]. split; [lia|]. intros _.
    split; [lia|].
    split.
    + destruct (Htable 0 ltac:(lia)) as (b & Hb & Hspec).
      apply py_getitem_lookup; [done|]. destruct b; [|done].
      destruct Hspec as [Hspec _]. specialize (Hspec eq_refl). lia.
    + destruct (Htable 1 ltac:(lia)) as (b & Hb & Hspec).
      apply py_getitem_lookup; [done|]. destruct b; [|done].
      destruct Hspec as [Hspec _]. specialize (Hspec eq_refl). lia.
Qed.

(** ** Claims about [extract_primes_from_sieve] *)

(** Over indices inside the table the comprehension is a filter. *)
Lemma select_marked_filter (sieve : list bool) (xs : list Z) :
  Forall (λ i, 0 ≤ i < len sieve) xs →
  select_marked sieve xs = Ok (filter (λ i, sieve !! Z.to_nat i = Some true) xs).
Proof.
  induction xs as [|i xs IH]; intros Hxs; [done|].
  apply Forall_cons in Hxs as [Hi Hxs]. simpl.
  destruct (py_getitem_in_range sieve i Hi) as (b & Hb & ->). simpl.
  rewrite IH by done. simpl. rewrite filter_cons, Hb.
  destruct b; [by rewrite decide_True|by rewrite decide_False].
Qed.

(** The indices the comprehension ranges over lie inside the table. *)
Lemma extract_indices_in_table (sieve : list bool) (lo hi : Z) :
  Forall (λ i, 0 ≤ i < len sieve)
         (py_range (Z.max 2 lo) (Z.min (len sieve) (hi + 1))).
Proof. apply Forall_forall. intros i Hi%elem_of_py_range. lia. Qed.

Lemma extract_primes_from_sieve_spec (sieve : list bool) (lo hi : Z) :
  extract_primes_from_sieve sieve lo hi = Ok (extract_spec sieve lo hi).
Proof.
  unfold extract_primes_from_sieve, extract_spec.
  rewrite select_marked_filter by apply extract_indices_in_table.
  unfold py_range. do 3 f_equal. lia.
Qed.

Lemma StronglySorted_seqZ (m n : Z) : StronglySorted Z.lt (seqZ m n).
Proof.
  destruct (Z.le_gt_cases n 0) as [Hn|Hn]; [rewrite seqZ_nil by done; constructor|].
  rewrite <- (Z2Nat.id n) by lia. generalize (Z.to_nat n) as k. clear.
  intros k. revert m. induction k as [|k IH]; intros m.
  - rewrite seqZ_nil by done. constructor.
  - rewrite seqZ_cons by lia. constructor.
    + replace (Z.pred (Z.of_nat (S k))) with (Z.of_nat k) by lia. apply IH.
    + apply Forall_forall. intros x Hx%elem_of_seqZ. lia.
Qed.

Lemma StronglySorted_filter_lt (P : Z → Prop) `{!∀ x, Decision (P x)} (l : list Z) :
  StronglySorted Z.lt l → StronglySorted Z.lt (filter P l).
Proof.
  induction 1 as [|x l Hl IH Hx]; [constructor|].
  rewrite filter_cons. destruct (decide (P x)); [|done].
  constructor; [done|]. apply Forall_forall. intros y [_ Hy]%list_elem_of_filter.
  rewrite Forall_forall in Hx. by apply Hx.
Qed.

Lemma StronglySorted_strictly_increasing (l : list Z) :
  StronglySorted Z.lt l → strictly_increasing l.
Proof.
  induction 1 as [|x l Hl IH Hx]; [done|].
  destruct l as [|y l]; [done|]. split; [|done].
  by apply Forall_cons in Hx as [? _].
Qed.

(** C3. For every table and all [lo <= hi], the list returned by
    [extract_primes_from_sieve] is strictly increasing, and each of its
    elements [i] satisfies [max(2, lo) <= i <= hi] and [table[i] = True]. *)
Theorem extract_increasing_in_range (table : list bool) (lo hi : Z) :
  lo ≤ hi →
  ∃ primes,
    extract_primes_from_sieve table lo hi = Ok primes ∧
    strictly_increasing primes ∧
    Forall (λ i, Z.max 2 lo ≤ i ≤ hi ∧ py_getitem table i = Ok true) primes.
Proof.
  intros _. exists (extract_spec table lo hi).
  split; [apply extract_primes_from_sieve_spec|]. split.
  - apply StronglySorted_strictly_increasing, StronglySorted_filter_lt,
      StronglySorted_seqZ.
  - apply Forall_forall. intros i [Hi Hin%elem_of_seqZ]%list_elem_of_filter.
    split; [lia|]. apply py_getitem_lookup; [lia|done].
Qed.

Lemma extract_increasing_in_range_witness :
  1 ≤ 10 ∧
  ∃ primes,
    extract_primes_from_sieve
      [false; false; true; true; false; true; false; true] 1 10 = Ok primes ∧
    strictly_increasing primes ∧
    Forall (λ i, Z.max 2 1 ≤ i ≤ 10 ∧
                 py_getitem [false; false; true; true; false; true; false; true] i
                 = Ok true) primes.
Proof. split; [lia|]. apply extract_increasing_in_range. lia. Defined.

(** C4. [extract_primes_from_sieve] is total over every table and every pair
    of bounds: it returns the marked indices between [max(2, lo)] and
    [min(table length - 1, hi)], reads no index outside the table, and returns
    the empty list when the effective lower bound exceeds the effective upper
    bound. *)
Theorem extract_total_clamped (table : list bool) (lo hi : Z) :
  extract_primes_from_sieve table lo hi = Ok (extract_spec table lo hi) ∧
  Forall (λ i, 0 ≤ i < len table)
         (py_range (Z.max 2 lo) (Z.min (len table) (hi + 1))) ∧
  (Z.min (len table - 1) hi < Z.max 2 lo →
   extract_primes_from_sieve table lo hi = Ok []).
Proof.
  split; [apply extract_primes_from_sieve_spec|].
  split; [apply extract_indices_in_table|].
  intros Hempty. rewrite extract_primes_from_sieve_spec. unfold extract_spec.
  by rewrite seqZ_nil by lia.
Qed.

Lemma extract_total_clamped_witness :
  Z.min (len [false; false; true; true] - 1) 9 < Z.max 2 5 ∧
  extract_primes_from_sieve [false; false; true; true] 5 9 = Ok [].
Proof.
  split; [simpl; lia|].
  apply (extract_total_clamped [false; false; true; true] 5 9). simpl. lia.
Defined.

(** ** Claims about [find_primes_in_range] *)

Lemma create_sieve_returns (N : Z) : ∃ table, create_sieve N = Ok table.
Proof.
  destruct (Z.lt_ge_cases N 2) as [Hlt|Hge].
  - exists []. unfold create_sieve. by rewrite bool_decide_eq_true_2.
  - destruct (create_sieve_sieved N Hge) as (table & Hrun & _). by exists table.
Qed.

Lemma full_pipeline_returns (lo hi : Z) : ∃ primes, full_pipeline lo hi = Ok primes.
Proof.
  unfold full_pipeline. destruct (create_sieve_returns hi) as (table & ->). simpl.
  rewrite extract_primes_from_sieve_spec. eauto.
Qed.

(** Below 2 the table is empty, and so is what is extracted from it. *)
Lemma full_pipeline_below_2 (lo hi : Z) : hi < 2 → full_pipeline lo hi = Ok [].
Proof.
  intros Hhi. unfold full_pipeline, create_sieve.
  rewrite bool_decide_eq_true_2 by done. simpl.
  rewrite extract_primes_from_sieve_spec. unfold extract_spec. simpl.
  by rewrite seqZ_nil by lia.
Qed.

(** With integer bounds in order, the query is the pipeline. *)
Lemma find_primes_in_range_valid (lo hi : pyval) :
  isinstance_int lo = true → isinstance_int hi = true →
  int_value lo ≤ int_value hi →
  find_primes_in_range lo hi = full_pipeline (int_value lo) (int_value hi).
Proof.
  intros Hlo Hhi Hle. unfold find_primes_in_range. rewrite Hlo, Hhi. simpl.
  rewrite bool_decide_eq_false_2 by lia. case_bool_decide as H2; [|done].
  by rewrite full_pipeline_below_2.
Qed.

(** C5. [find_primes_in_range] raises [TypeError] (the specification's
    InvalidInput) exactly when a bound is not an [int]; it raises [ValueError]
    (InvalidRange) exactly when both are and [lo > hi]; otherwise it returns a
    list.  The calls [(10, 5)] and [("a", 10)] raise [ValueError] and
    [TypeError]. *)
Theorem find_primes_in_range_errors (lo hi : pyval) :
  (find_primes_in_range lo hi = Raise TypeError ↔
     isinstance_int lo = false ∨ isinstance_int hi = false) ∧
  (find_primes_in_range lo hi = Raise ValueError ↔
     isinstance_int lo = true ∧ isinstance_int hi = true ∧
     int_value lo > int_value hi) ∧
  (isinstance_int lo = true → isinstance_int hi = true →
   int_value lo ≤ int_value hi →
   ∃ primes, find_primes_in_range lo hi = Ok primes) ∧
  find_primes_in_range (PyInt 10) (PyInt 5) = Raise ValueError ∧
  find_primes_in_range (PyStr "a") (PyInt 10) = Raise TypeError.
Proof.
  assert (isinstance_int lo = true → isinstance_int hi = true →
          int_value lo ≤ int_value hi →
          ∃ primes, find_primes_in_range lo hi = Ok primes) as Hok.
  { intros Hlo Hhi Hle. rewrite find_primes_in_range_valid by done.
    apply full_pipeline_returns. }
  split; [|split; [|split; [done|split; reflexivity]]].
  - split.
    + intros Hraise.
      destruct (isinstance_int lo) eqn:Hlo; [|by left].
      destruct (isinstance_int hi) eqn:Hhi; [|by right].
      exfalso. destruct (Z.le_gt_cases (int_value lo) (int_value hi)) as [Hle|Hgt].
      * destruct (Hok eq_refl eq_refl Hle) as (primes & Hret). congruence.
      * unfold find_primes_in_range in Hraise. rewrite Hlo, Hhi in Hraise.
        simpl in Hraise. by rewrite bool_decide_eq_true_2 in Hraise by lia.
    + unfold find_primes_in_range. intros [-> | ->]; simpl; [done|].
      by rewrite orb_true_r.
  - split.
    + intros Hraise.
      destruct (isinstance_int lo) eqn:Hlo;
        [|unfold find_primes_in_range in Hraise; by rewrite Hlo in Hraise].
      destruct (isinstance_int hi) eqn:Hhi;
        [|unfold find_primes_in_range in Hraise; by rewrite Hlo, Hhi in Hraise].
      split; [done|]. split; [done|].
      destruct (Z.le_gt_cases (int_value lo) (int_value hi)) as [Hle|Hgt]; [|lia].
      destruct (Hok eq_refl eq_refl Hle) as (primes & Hret). congruence.
    + intros (Hlo & Hhi & Hgt). unfold find_primes_in_range.
      rewrite Hlo, Hhi. simpl. by rewrite bool_decide_eq_true_2.
Qed.

Lemma find_primes_in_range_errors_witness :
  ∃ primes, find_primes_in_range (PyInt 1) (PyInt 30) = Ok primes.
Proof.
  apply (find_primes_in_range_errors (PyInt 1) (PyInt 30)); [reflexivity..|simpl; lia].
Defined.

(** C6. For integer bounds [lo <= hi], the short cut taken when [hi < 2] cannot
    be observed: the full pipeline
    [extract_primes_from_sieve(create_sieve(hi), lo, hi)] also yields the empty
    list there, and for every valid pair [find_primes_in_range] returns what
    the full pipeline returns. *)
Theorem short_cut_unobservable (lo hi : pyval) :
  isinstance_int lo = true → isinstance_int hi = true →
  int_value lo ≤ int_value hi →
  (int_value hi < 2 → full_pipeline (int_value lo) (int_value hi) = Ok []) ∧
  find_primes_in_range lo hi = full_pipeline (int_value lo) (int_value hi).
Proof.
  intros Hlo Hhi Hle. split; [apply full_pipeline_below_2|].
  by apply find_primes_in_range_valid.
Qed.

Lemma short_cut_unobservable_witness :
  int_value (PyInt (-3)) ≤ int_value (PyInt 1) ∧
  full_pipeline (int_value (PyInt (-3))) (int_value (PyInt 1)) = Ok [] ∧
  find_primes_in_range (PyInt (-3)) (PyInt 1)
  = full_pipeline (int_value (PyInt (-3))) (int_value (PyInt 1)).
Proof.
  split; [simpl; lia|].
  destruct (short_cut_unobservable (PyInt (-3)) (PyInt 1)) as [Hshort Heq];
    [reflexivity|reflexivity|simpl; lia|].
  split; [apply Hshort; simpl; lia|exact Heq].
Defined.

(** C7, as the code has it. [find_primes_in_range(1, 1)] returns the empty
    list, [find_primes_in_range(2, 2)] returns [[2]], and
    [find_primes_in_range(1, 250)] returns 53 primes, the first 2 and the last
    241. *)
Theorem find_primes_in_range_boundaries :
  find_primes_in_range (PyInt 1) (PyInt 1) = Ok [] ∧
  find_primes_in_range (PyInt 2) (PyInt 2) = Ok [2] ∧
  ∃ primes,
    find_primes_in_range (PyInt 1) (PyInt 250) = Ok primes ∧
    length primes = 53%nat ∧ head primes = Some 2 ∧ last primes = Some 241.
Proof.
  split; [vm_compute; reflexivity|]. split; [vm_compute; reflexivity|].
  eexists. split; [vm_compute; reflexivity|]. by vm_compute.
Qed.

(** C7, as stated, fails: the call on [(1, 250)] does not return 54 primes. *)
Lemma find_primes_in_range_not_54 :
  ¬ (find_primes_in_range (PyInt 1) (PyInt 1) = Ok [] ∧
     find_primes_in_range (PyInt 2) (PyInt 2) = Ok [2] ∧
     ∃ primes,
       find_primes_in_range (PyInt 1) (PyInt 250) = Ok primes ∧
       length primes = 54%nat ∧ head primes = Some 2 ∧ last primes = Some 241).
Proof.
  intros (_ & _ & primes & Hrun & Hlen & _).
  vm_compute in Hrun. injection Hrun as <-. vm_compute in Hlen. discriminate.
Qed.

(** ** The store-passing embedding against the functional one *)

Module StoreFacts.

(** A loop whose body works on the object at [r] alone is the same loop on
    that object's value. *)
Lemma for_each_at {A : Type} (r : nat) (xs : list A)
    (body_h : A → list (list bool) → result (list (list bool)))
    (body : A → list bool → result (list bool)) :
  (∀ x h s, h !! r = Some s →
            body_h x h = (s' ← body x s; Ok (<[r := s']> h))) →
  ∀ h s, h !! r = Some s →
         for_each xs body_h h = (s' ← for_each xs body s; Ok (<[r := s']> h)).
Proof.
  intros Hbody. induction xs as [|x xs IH]; intros h s Hr; simpl.
  - by rewrite list_insert_id.
  - rewrite (Hbody x h s Hr). destruct (body x s) as [s1|e]; simpl; [|done].
    rewrite (IH (<[r := s1]> h) s1).
    + destruct (for_each xs body s1); simpl; [|done].
      by rewrite list_insert_insert_eq.
    + apply list_lookup_insert_eq. by eapply lookup_lt_Some.
Qed.

Lemma setitem_at (r : nat) (i : Z) (v : bool) (h : list (list bool)) (s : list bool) :
  h !! r = Some s →
  Store.setitem r i v h = (s' ← py_setitem s i v; Ok (<[r := s']> h)).
Proof.
  intros Hr. unfold Store.setitem. by rewrite (list_lookup_total_correct _ _ _ Hr).
Qed.

Lemma getitem_at (r : nat) (i : Z) (h : list (list bool)) (s : list bool) :
  h !! r = Some s → Store.getitem r i h = py_getitem s i.
Proof.
  intros Hr. unfold Store.getitem. by rewrite (list_lookup_total_correct _ _ _ Hr).
Qed.

Lemma mark_multiples_at (N i : Z) (r : nat) (h : list (list bool)) (s : list bool) :
  h !! r = Some s →
  Store.mark_multiples N i r h = (s' ← mark_multiples N i s; Ok (<[r := s']> h)).
Proof.
  intros Hr. unfold Store.mark_multiples, mark_multiples.
  apply (for_each_at r); [|done]. intros j h' s' Hr'. by apply setitem_at.
Qed.

Lemma sieve_body_at (N : Z) (r : nat) (i : Z) (h : list (list bool)) (s : list bool) :
  h !! r = Some s →
  Store.sieve_body N r i h = (s' ← sieve_body N i s; Ok (<[r := s']> h)).
Proof.
  intros Hr. unfold Store.sieve_body, sieve_body. rewrite (getitem_at r i h s Hr).
  destruct (py_getitem s i) as [[|]|e]; simpl; [|by rewrite list_insert_id|done].
  by apply mark_multiples_at.
Qed.

(** [create_sieve] allocates one object, the table, and leaves the others
    as they were. *)
Lemma create_sieve_at (N : Z) (h : list (list bool)) :
  Store.create_sieve N h = (s ← create_sieve N; Ok (length h, h ++ [s])).
Proof.
  unfold Store.create_sieve, create_sieve. case_bool_decide; [done|].
  unfold Store.alloc.
  set (s0 := replicate (Z.to_nat (N + 1)) true).
  assert (∀ s : list bool, (h ++ [s]) !! length h = Some s) as Hnew.
  { intros s. by rewrite lookup_app_r, Nat.sub_diag by lia. }
  assert (∀ s s' : list bool, <[length h := s']> (h ++ [s]) = h ++ [s']) as Hset.
  { intros s s'. rewrite insert_app_r_alt, Nat.sub_diag by lia. done. }
  rewrite (setitem_at _ _ _ _ s0 (Hnew s0)).
  destruct (py_setitem s0 0 false) as [s1|e]; simpl; [|done]. rewrite Hset.
  rewrite (setitem_at _ _ _ _ s1 (Hnew s1)).
  destruct (py_setitem s1 1 false) as [s2|e]; simpl; [|done]. rewrite Hset.
  rewrite (for_each_at (length h) _ _ (sieve_body N) (sieve_body_at N (length h))
             _ s2 (Hnew s2)).
  destruct (for_each _ (sieve_body N) s2) as [s3|e]; simpl; [|done].
  by rewrite Hset.
Qed.

Lemma select_marked_at (r : nat) (xs : list Z) (h : list (list bool)) (s : list bool) :
  h !! r = Some s → Store.select_marked r xs h = select_marked s xs.
Proof.
  intros Hr. induction xs as [|i xs IH]; simpl; [done|].
  by rewrite (getitem_at r i h s Hr), IH.
Qed.

Lemma extract_primes_from_sieve_at (r : nat) (lo hi : Z)
    (h : list (list bool)) (s : list bool) :
  h !! r = Some s →
  Store.extract_primes_from_sieve r lo hi h = extract_primes_from_sieve s lo hi.
Proof.
  intros Hr. unfold Store.extract_primes_from_sieve, extract_primes_from_sieve.
  rewrite (list_lookup_total_correct _ _ _ Hr). by apply select_marked_at.
Qed.

(** A call returns what the functional embedding returns, whatever the
    store, and only appends to the store. *)
Lemma find_primes_in_range_at (lo hi : pyval) (h : list (list bool)) :
  match Store.find_primes_in_range lo hi h with
  | Ok (primes, h') =>
      find_primes_in_range lo hi = Ok primes ∧ h `prefix_of` h'
  | Raise e => find_primes_in_range lo hi = Raise e
  end.
Proof.
  unfold Store.find_primes_in_range, find_primes_in_range.
  destruct (negb (isinstance_int lo) || negb (isinstance_int hi)); [done|].
  case_bool_decide; [done|]. case_bool_decide; [done|].
  rewrite create_sieve_at.
  destruct (create_sieve (int_value hi)) as [s|e]; simpl; [|done].
  rewrite (extract_primes_from_sieve_at _ _ _ _ s)
    by (by rewrite lookup_app_r, Nat.sub_diag by lia).
  destruct (extract_primes_from_sieve s _ _); simpl; [|done].
  split; [done|]. by apply prefix_app_r.
Qed.

Lemma outcome_find_primes_in_range (lo hi : pyval) (h : list (list bool)) :
  Store.outcome (Store.find_primes_in_range lo hi h) = find_primes_in_range lo hi.
Proof.
  pose proof (find_primes_in_range_at lo hi h) as H.
  destruct (Store.find_primes_in_range lo hi h) as [[primes h']|e]; simpl.
  - by destruct H as [-> _].
  - by rewrite H.
Qed.

End StoreFacts.

(** C8. [find_primes_in_range] is deterministic: whatever the store holds when
    a call starts, in particular what an earlier call with the same arguments
    left there, the call yields the same list, or raises the same exception;
    and a call changes no object that existed before it. *)
Theorem find_primes_in_range_deterministic (lo hi : pyval) (h1 h2 : list (list bool)) :
  Store.outcome (Store.find_primes_in_range lo hi h1)
  = Store.outcome (Store.find_primes_in_range lo hi h2) ∧
  match Store.find_primes_in_range lo hi h1 with
  | Ok (primes, h1') =>
      h1 `prefix_of` h1' ∧
      Store.outcome (Store.find_primes_in_range lo hi h1') = Ok primes
  | Raise e => True
  end.
Proof.
  split; [by rewrite !StoreFacts.outcome_find_primes_in_range|].
  pose proof (StoreFacts.find_primes_in_range_at lo hi h1) as H.
  destruct (Store.find_primes_in_range lo hi h1) as [[primes h1']|e]; [|done].
  destruct H as [Hret Hpre]. split; [done|].
  by rewrite StoreFacts.outcome_find_primes_in_range.
Qed.

(** ** Strings *)

Lemma string_app_cons (a : ascii) (s t : string) :
  String a s +:+ t = String a (s +:+ t).
Proof. reflexivity. Qed.

Lemma string_app_nil_r (s : string) : s +:+ EmptyString = s.
Proof. induction s as [|a s IH]; [done|]. by rewrite string_app_cons, IH. Qed.

Lemma string_app_assoc (s t u : string) : (s +:+ t) +:+ u = s +:+ t +:+ u.
Proof. induction s as [|a s IH]; [done|]. by rewrite !string_app_cons, IH. Qed.

Lemma string_length_app (s t : string) :
  String.length (s +:+ t) = (String.length s + String.length t)%nat.
Proof. induction s as [|a s IH]; [done|]. rewrite string_app_cons. simpl. by rewrite IH. Qed.

Lemma length_spaces (n : nat) : String.length (spaces n) = n.
Proof. induction n as [|n IH]; [done|]. simpl. by rewrite IH. Qed.

(** ** Rows of ten *)

Lemma py_range_step_nil (start stop step : Z) :
  0 < step → stop ≤ start → py_range_step start stop step = [].
Proof.
  intros Hstep Hle. unfold py_range_step. rewrite seqZ_nil; [done|].
  assert ((stop - start + step - 1) `div` step < 1); [|lia].
  apply Z.div_lt_upper_bound; lia.
Qed.

Lemma py_range_step_cons (start stop step : Z) :
  0 < step → start < stop →
  py_range_step start stop step = start :: py_range_step (start + step) stop step.
Proof.
  intros Hstep Hlt. unfold py_range_step.
  replace (stop - start + step - 1) with ((stop - (start + step) + step - 1) + 1 * step)
    by lia.
  rewrite Z.div_add by lia.
  set (c := (stop - (start + step) + step - 1) `div` step).
  assert (0 ≤ c) as Hc by (apply Z.div_pos; lia).
  rewrite seqZ_cons by lia. rewrite fmap_cons. f_equal; [lia|].
  replace (Z.pred (c + 1)) with c by lia.
  change (Z.succ 0) with (1 + 0).
  rewrite <- (fmap_add_seqZ 1 0 c), <- list_fmap_compose.
  apply list_fmap_ext. intros _ t _. simpl. lia.
Qed.

Lemma rows_of_nil (n fuel : nat) : rows_of n fuel [] = [].
Proof. by destruct fuel. Qed.

(** Slicing at the indices 0, 10, 20, ... cuts the list into its rows. *)
Lemma slices_rows_of (l : list Z) (fuel : nat) (start : Z) :
  0 ≤ start → (length l - Z.to_nat start ≤ fuel)%nat →
  (λ i, py_slice l i (i + 10)) <$> py_range_step start (len l) 10
  = rows_of 10 fuel (drop (Z.to_nat start) l).
Proof.
  revert start. induction fuel as [|fuel IH]; intros start Hstart Hfuel.
  - rewrite py_range_step_nil by lia. done.
  - destruct (Z.le_gt_cases (len l) start) as [Hout|Hin].
    + rewrite py_range_step_nil by lia. rewrite drop_ge by lia. done.
    + rewrite py_range_step_cons by lia. rewrite fmap_cons.
      rewrite (IH (start + 10)) by lia.
      assert (drop (Z.to_nat start) l ≠ []) as Hne.
      { intros Hnil%(f_equal length). rewrite length_drop in Hnil. simpl in Hnil. lia. }
      simpl. destruct (drop (Z.to_nat start) l) as [|x rest] eqn:Hdrop; [done|].
      rewrite <- Hdrop. f_equal.
      * unfold py_slice. f_equal. lia.
      * f_equal. rewrite drop_drop. f_equal. lia.
Qed.

Lemma rows_of_concat (n fuel : nat) (l : list Z) :
  (0 < n)%nat → (length l ≤ fuel)%nat → concat (rows_of n fuel l) = l.
Proof.
  intros Hn. revert l. induction fuel as [|fuel IH]; intros l Hl.
  - destruct l; [done|simpl in Hl; lia].
  - destruct l as [|x l]; [done|]. cbn [rows_of concat].
    rewrite IH; [apply take_drop|]. rewrite length_drop. simpl in *. lia.
Qed.

Lemma rows_of_lengths (n fuel : nat) (l : list Z) :
  (0 < n)%nat →
  Forall (λ row, (1 ≤ length row ≤ n)%nat) (rows_of n fuel l).
Proof.
  intros Hn. revert l. induction fuel as [|fuel IH]; intros l; [constructor|].
  destruct l as [|x l]; [constructor|]. cbn [rows_of]. constructor; [|apply IH].
  rewrite length_take. simpl. lia.
Qed.

(** Every row but the last is full. *)
Lemma rows_of_full (n fuel : nat) (l : list Z) :
  Forall (λ row, length row = n) (removelast (rows_of n fuel l)).
Proof.
  revert l. induction fuel as [|fuel IH]; intros l; [constructor|].
  destruct l as [|x l]; [constructor|]. cbn [rows_of].
  destruct (rows_of n fuel (drop n (x :: l))) as [|row rows] eqn:Hrows;
    [constructor|].
  change (removelast (?r :: row :: rows)) with (r :: removelast (row :: rows)).
  constructor; [|rewrite <- Hrows; apply IH].
  rewrite length_take. apply Nat.min_l.
  destruct (Nat.le_gt_cases n (length (x :: l))) as [|Hshort]; [done|].
  rewrite drop_ge, rows_of_nil in Hrows by lia. done.
Qed.

(** ** The file system *)

Lemma file_writes_append (filename : string) {A : Type} (g : A → string)
    (xs : list A) (fs : gmap string string) :
  fold_left (λ fs x, file_write filename (g x) fs) xs fs !! filename
  = (λ text, text +:+ concat_str (g <$> xs)) <$> fs !! filename.
Proof.
  revert fs. induction xs as [|x xs IH]; intros fs; simpl.
  - destruct (fs !! filename); simpl; [|done]. by rewrite string_app_nil_r.
  - rewrite IH. unfold file_write. rewrite lookup_alter_eq.
    destruct (fs !! filename); simpl; [|done]. by rewrite string_app_assoc.
Qed.

(** ** Claims about the report *)

(** C9. For every list of primes, the text [save_primes_to_file] leaves in the
    file is the header line [Found {count} prime numbers between 1 and 250: ],
    with the count the length of the list and the bounds a fixed literal, then
    a blank line, then the values in rows of 10, one row per line, each value
    right-aligned in a field of 6 characters (wider when the value has more
    than 6 characters). *)
Theorem save_primes_to_file_text (primes : list Z) (filename : string)
    (fs : gmap string string) :
  let rows := rows_of 10 (length primes) primes in
  save_primes_to_file primes filename fs !! filename
  = Some ("Found " +:+ str_int (len primes)
            +:+ " prime numbers between 1 and 250: " +:+ nl
            +:+ nl
            +:+ concat_str ((λ row, join " " (format_6d <$> row) +:+ nl) <$> rows)) ∧
  concat rows = primes ∧
  Forall (λ row, (1 ≤ length row ≤ 10)%nat) rows ∧
  Forall (λ row, length row = 10%nat) (removelast rows) ∧
  ∀ p, String.length (format_6d p) = Nat.max 6 (String.length (str_int p)) ∧
       ∃ k, format_6d p = spaces k +:+ str_int p.
Proof.
  intros rows. split; [|split; [|split; [|split]]].
  - unfold save_primes_to_file.
    rewrite (file_writes_append filename
               (λ i, format_row (py_slice primes i (i + 10)) +:+ nl)).
    unfold file_write, open_w. rewrite lookup_alter_eq, lookup_insert_eq. simpl.
    rewrite !string_app_assoc. change (EmptyString +:+ ?s) with s. do 6 f_equal.
    pose proof (slices_rows_of primes (length primes) 0 ltac:(lia) ltac:(lia)) as Hrows.
    change (drop (Z.to_nat 0) primes) with primes in Hrows.
    subst rows. rewrite <- Hrows, <- list_fmap_compose. done.
  - apply rows_of_concat; lia.
  - apply rows_of_lengths; lia.
  - apply rows_of_full.
  - intros p. split; [|by eexists].
    unfold format_6d. rewrite string_length_app, length_spaces. lia.
Qed.

Example report_of_12_primes :
  save_primes_to_file [2; 3; 5; 7; 11; 13; 17; 19; 23; 29; 31; 37] "results.txt" ∅
    !! "results.txt"
  = Some ("Found 12 prime numbers between 1 and 250: " +:+ nl +:+ nl
          +:+ "     2      3      5      7     11     13     17     19     23     29"
          +:+ nl +:+ "    31     37" +:+ nl).
Proof. by vm_compute. Qed.

(** C10. For an empty list of primes, [print_primes] prints the one line
    [No prime numbers found in the given range.] and nothing else, whatever
    the format selector: ["list"], ["columns"], or any other value. *)
Theorem print_primes_empty (format_type : pyval) (out : string) :
  print_primes [] format_type out
  = out +:+ "No prime numbers found in the given range." +:+ nl.
Proof. reflexivity. Qed.

(** * Further properties of the code *)

(** ** The table in closed form *)

Lemma sieved_final (N m : Z) (s : list bool) :
  sieved N (int_sqrt N + 1) s → 0 ≤ m ≤ N →
  s !! Z.to_nat m = Some (is_prime_entry m).
Proof.
  intros [_ Hs] Hm. destruct (Hs m Hm) as (b & -> & Hspec). f_equal.
  apply eq_true_iff_eq. rewrite Hspec. unfold is_prime_entry.
  rewrite andb_true_iff, bool_decide_eq_true, trial_division_spec by lia.
  unfold no_small_divisor. split.
  - intros [Hm2 Hd]. split; [done|]. intros d Hd2 Hdd. apply Hd; [|done].
    split; [done|]. unfold int_sqrt. assert (d ≤ Z.sqrt N); [|lia].
    apply Z.sqrt_le_square; [lia..|]. nia.
  - intros [Hm2 Hd]. split; [done|]. intros d [Hd2 _]. by apply Hd.
Qed.

Lemma create_sieve_table (N : Z) :
  2 ≤ N → create_sieve N = Ok (is_prime_entry <$> seqZ 0 (N + 1)).
Proof.
  intros HN. destruct (create_sieve_sieved N HN) as (table & -> & Htable).
  f_equal. apply list_eq. intros k.
  destruct (decide (Z.of_nat k ≤ N)) as [Hk|Hk].
  - rewrite <- (Nat2Z.id k) at 1. rewrite (sieved_final N _ _ Htable) by lia.
    rewrite list_lookup_fmap, lookup_seqZ_lt by lia. done.
  - destruct Htable as [Hlen _].
    rewrite lookup_ge_None_2 by lia.
    rewrite list_lookup_fmap, lookup_seqZ_ge by lia. done.
Qed.

Lemma filter_ext_elem {A : Type} (P1 P2 : A → Prop)
    `{!∀ x, Decision (P1 x), !∀ x, Decision (P2 x)} (l : list A) :
  (∀ x, x ∈ l → P1 x ↔ P2 x) → filter P1 l = filter P2 l.
Proof.
  induction l as [|a l IH]; intros Hiff; [done|].
  rewrite !filter_cons.
  rewrite IH by (intros x Hx; apply Hiff; by right).
  destruct (decide (P1 a)) as [H1|H1], (decide (P2 a)) as [H2|H2]; try done;
    exfalso; apply (Hiff a) in H1 || apply (Hiff a) in H2; try done; by left.
Qed.

(** With integer bounds in order, the query is trial division over the range. *)
Lemma full_pipeline_trial_division (lo hi : Z) :
  full_pipeline lo hi
  = Ok (filter (λ i, trial_division i = true)
               (seqZ (Z.max 2 lo) (hi - Z.max 2 lo + 1))).
Proof.
  destruct (Z.lt_ge_cases hi 2) as [Hlt|Hge].
  - rewrite full_pipeline_below_2 by done. by rewrite seqZ_nil by lia.
  - unfold full_pipeline. rewrite create_sieve_table by done. simpl.
    rewrite extract_primes_from_sieve_spec. unfold extract_spec.
    rewrite length_fmap, length_seqZ. f_equal.
    replace (Z.min (Z.of_nat (Z.to_nat (hi + 1)) - 1) hi) with hi by lia.
    apply filter_ext_elem. intros i Hi%elem_of_seqZ.
    rewrite list_lookup_fmap, lookup_seqZ_lt by lia. simpl.
    replace (0 + Z.of_nat (Z.to_nat i)) with i by lia.
    unfold is_prime_entry. rewrite bool_decide_eq_true_2 by lia. simpl.
    split; congruence.
Qed.

(** X1. With integer bounds [lo <= hi], [find_primes_in_range] returns exactly
    the primes of the range: the list is what trial division selects from
    [max(2, lo), ..., hi], and an integer is in it if and only if it lies
    between [lo] and [hi] and is prime. *)
Theorem find_primes_in_range_exact (lo hi : Z) :
  lo ≤ hi →
  ∃ primes,
    find_primes_in_range (PyInt lo) (PyInt hi) = Ok primes ∧
    primes = filter (λ i, trial_division i = true)
                    (seqZ (Z.max 2 lo) (hi - Z.max 2 lo + 1)) ∧
    ∀ i, i ∈ primes ↔ lo ≤ i ≤ hi ∧ Z.prime i.
Proof.
  intros Hle. eexists. split; [|split; [reflexivity|]].
  - rewrite find_primes_in_range_valid by done. apply full_pipeline_trial_division.
  - intros i. rewrite list_elem_of_filter, elem_of_seqZ. split.
    + intros [Htrial Hi]. split; [lia|].
      apply no_small_divisor_prime; [lia|]. apply trial_division_spec; [lia|done].
    + intros [Hi Hp]. assert (2 ≤ i) by (destruct Hp; lia). split; [|lia].
      apply trial_division_spec; [lia|]. by apply no_small_divisor_prime.
Qed.

Lemma find_primes_in_range_exact_witness :
  10 ≤ 20 ∧
  ∃ primes,
    find_primes_in_range (PyInt 10) (PyInt 20) = Ok primes ∧
    primes = filter (λ i, trial_division i = true)
                    (seqZ (Z.max 2 10) (20 - Z.max 2 10 + 1)) ∧
    ∀ i, i ∈ primes ↔ 10 ≤ i ≤ 20 ∧ Z.prime i.
Proof. split; [lia|]. apply (find_primes_in_range_exact 10 20). lia. Defined.

(** X2. A range can be queried in two parts: for integers [lo <= mid < hi], the
    results on [(lo, mid)] and [(mid + 1, hi)], put end to end, are the result
    on [(lo, hi)], although the three calls build tables of different sizes. *)
Theorem find_primes_in_range_split (lo mid hi : Z) :
  lo ≤ mid → mid < hi →
  ∃ left right,
    find_primes_in_range (PyInt lo) (PyInt mid) = Ok left ∧
    find_primes_in_range (PyInt (mid + 1)) (PyInt hi) = Ok right ∧
    find_primes_in_range (PyInt lo) (PyInt hi) = Ok (left ++ right).
Proof.
  intros Hlo Hhi.
  rewrite !find_primes_in_range_valid by (done || simpl; lia). simpl.
  rewrite !full_pipeline_trial_division.
  eexists _, _. split; [done|]. split; [done|]. f_equal.
  rewrite <- filter_app. f_equal.
  destruct (Z.lt_ge_cases mid 2) as [Hmid|Hmid].
  - rewrite (seqZ_nil _ (mid - _ + 1)) by lia. simpl. f_equal; lia.
  - replace (hi - Z.max 2 lo + 1)
      with ((mid - Z.max 2 lo + 1) + (hi - Z.max 2 (mid + 1) + 1)) by lia.
    rewrite seqZ_app by lia. do 2 f_equal. lia.
Qed.

Lemma find_primes_in_range_split_witness :
  1 ≤ 10 ∧ 10 < 30 ∧
  ∃ left right,
    find_primes_in_range (PyInt 1) (PyInt 10) = Ok left ∧
    find_primes_in_range (PyInt (10 + 1)) (PyInt 30) = Ok right ∧
    find_primes_in_range (PyInt 1) (PyInt 30) = Ok (left ++ right).
Proof.
  split; [lia|]. split; [lia|]. apply (find_primes_in_range_split 1 10 30); lia.
Defined.

(** X3. A larger bound only extends the table: for [2 <= N <= M] the table
    built for [N] is the first [N + 1] entries of the table built for [M]. *)
Theorem create_sieve_prefix (N M : Z) :
  2 ≤ N → N ≤ M →
  ∃ small large,
    create_sieve N = Ok small ∧ create_sieve M = Ok large ∧
    small = take (Z.to_nat (N + 1)) large.
Proof.
  intros HN HM. rewrite !create_sieve_table by lia.
  eexists _, _. split; [done|]. split; [done|].
  replace (M + 1) with ((N + 1) + (M - N)) by lia.
  rewrite (seqZ_app 0 (N + 1) (M - N)), fmap_app by lia.
  rewrite take_app_length'; [done|]. by rewrite length_fmap, length_seqZ.
Qed.

Lemma create_sieve_prefix_witness :
  2 ≤ 10 ∧ 10 ≤ 30 ∧
  ∃ small large,
    create_sieve 10 = Ok small ∧ create_sieve 30 = Ok large ∧
    small = take (Z.to_nat (10 + 1)) large.
Proof. split; [lia|]. split; [lia|]. apply (create_sieve_prefix 10 30); lia. Defined.

(** X4. On one table, extraction over adjoining ranges composes: when
    [lo <= mid + 1] and [mid <= hi], extracting [(lo, mid)] and then
    [(mid + 1, hi)] gives, end to end, the extraction of [(lo, hi)], also when
    the table is shorter than the bounds ask for. *)
Theorem extract_primes_from_sieve_split (table : list bool) (lo mid hi : Z) :
  lo ≤ mid + 1 → mid ≤ hi →
  ∃ left right,
    extract_primes_from_sieve table lo mid = Ok left ∧
    extract_primes_from_sieve table (mid + 1) hi = Ok right ∧
    extract_primes_from_sieve table lo hi = Ok (left ++ right).
Proof.
  intros Hlo Hhi. rewrite !extract_primes_from_sieve_spec.
  eexists _, _. split; [done|]. split; [done|]. f_equal.
  unfold extract_spec. rewrite <- filter_app. f_equal.
  set (L := len table).
  destruct (Z.lt_ge_cases (Z.min (L - 1) mid) (Z.max 2 lo)) as [Hempty|Hsome].
  - rewrite (seqZ_nil _ (Z.min (L - 1) mid - _ + 1)) by lia. simpl.
    destruct (Z.lt_ge_cases (Z.min (L - 1) hi) (Z.max 2 lo)) as [Hnone|Hmore].
    + by rewrite !seqZ_nil by lia.
    + destruct (Z.lt_ge_cases mid (L - 1)); [f_equal; lia|].
      by rewrite !seqZ_nil by lia.
  - replace (Z.min (L - 1) hi - Z.max 2 lo + 1)
      with ((Z.min (L - 1) mid - Z.max 2 lo + 1)
            + (Z.min (L - 1) hi - Z.min (L - 1) mid)) by lia.
    rewrite seqZ_app by lia. f_equal.
    destruct (Z.lt_ge_cases mid (L - 1)); [f_equal; lia|].
    by rewrite !seqZ_nil by lia.
Qed.

Lemma extract_primes_from_sieve_split_witness :
  2 ≤ 4 + 1 ∧ 4 ≤ 9 ∧
  ∃ left right,
    extract_primes_from_sieve [false; false; true; true; false; true] 2 4 = Ok left ∧
    extract_primes_from_sieve [false; false; true; true; false; true] (4 + 1) 9
    = Ok right ∧
    extract_primes_from_sieve [false; false; true; true; false; true] 2 9
    = Ok (left ++ right).
Proof.
  split; [lia|]. split; [lia|].
  apply (extract_primes_from_sieve_split _ 2 4 9); lia.
Defined.

(** ** The report file as a whole *)

Lemma file_writes_other (filename other : string) {A : Type} (g : A → string)
    (xs : list A) (fs : gmap string string) :
  other ≠ filename →
  fold_left (λ fs x, file_write filename (g x) fs) xs fs !! other = fs !! other.
Proof.
  intros Hne. revert fs. induction xs as [|x xs IH]; intros fs; simpl; [done|].
  rewrite IH. unfold file_write. by rewrite lookup_alter_ne.
Qed.

(** Saving amounts to one update of the file system. *)
Lemma save_primes_to_file_insert (primes : list Z) (filename : string)
    (fs : gmap string string) :
  save_primes_to_file primes filename fs = <[filename := report_text primes]> fs.
Proof.
  apply map_eq. intros k. unfold save_primes_to_file.
  destruct (decide (k = filename)) as [->|Hne].
  - rewrite (file_writes_append filename
               (λ i, format_row (py_slice primes i (i + 10)) +:+ nl)).
    unfold file_write, open_w. rewrite lookup_alter_eq, !lookup_insert_eq. simpl.
    rewrite !string_app_assoc. change (EmptyString +:+ ?s) with s.
    unfold report_text, rows_text. do 6 f_equal.
    pose proof (slices_rows_of primes (length primes) 0 ltac:(lia) ltac:(lia)) as Hrows.
    change (drop (Z.to_nat 0) primes) with primes in Hrows.
    rewrite <- Hrows, <- list_fmap_compose. done.
  - rewrite (file_writes_other filename k
               (λ i, format_row (py_slice primes i (i + 10)) +:+ nl)) by done.
    unfold file_write, open_w, os_remove.
    rewrite lookup_alter_ne, !lookup_insert_ne by done.
    destruct (path_exists filename fs); [by rewrite lookup_delete_ne|done].
Qed.

(** X5. [save_primes_to_file] replaces and never appends: whatever the file
    system held, afterwards the file holds the report of the list, the same
    text as when nothing was there before, and every other file is as it
    was. *)
Theorem save_primes_to_file_replaces (primes : list Z) (filename : string)
    (fs : gmap string string) :
  save_primes_to_file primes filename fs !! filename
  = save_primes_to_file primes filename ∅ !! filename ∧
  save_primes_to_file primes filename fs = <[filename := report_text primes]> fs ∧
  ∀ other, other ≠ filename →
           save_primes_to_file primes filename fs !! other = fs !! other.
Proof.
  rewrite !save_primes_to_file_insert. split; [by rewrite !lookup_insert_eq|].
  split; [done|]. intros other Hne. by rewrite lookup_insert_ne.
Qed.

Lemma save_primes_to_file_replaces_witness :
  save_primes_to_file [2; 3] "results.txt" {[ "notes.txt" := "keep" ]} !! "notes.txt"
  = ({[ "notes.txt" := "keep" ]} : gmap string string) !! "notes.txt".
Proof.
  apply (save_primes_to_file_replaces [2; 3] "results.txt" {[ "notes.txt" := "keep" ]}).
  discriminate.
Defined.

(** X6. The last save wins: saving a list to a file that an earlier call
    wrote leaves the file system as if only the later call had run; in
    particular saving the same list twice is the same as saving it once. *)
Theorem save_primes_to_file_overwrites (first second : list Z) (filename : string)
    (fs : gmap string string) :
  save_primes_to_file second filename (save_primes_to_file first filename fs)
  = save_primes_to_file second filename fs.
Proof. rewrite !save_primes_to_file_insert. apply insert_insert_eq. Qed.

(** X7. Saves to different files do not interfere: they can be made in either
    order. *)
Theorem save_primes_to_file_commutes (primes1 primes2 : list Z)
    (filename1 filename2 : string) (fs : gmap string string) :
  filename1 ≠ filename2 →
  save_primes_to_file primes1 filename1 (save_primes_to_file primes2 filename2 fs)
  = save_primes_to_file primes2 filename2 (save_primes_to_file primes1 filename1 fs).
Proof. intros Hne. rewrite !save_primes_to_file_insert. by apply insert_insert_ne. Qed.

Lemma save_primes_to_file_commutes_witness :
  save_primes_to_file [2] "a.txt" (save_primes_to_file [3; 5] "b.txt" ∅)
  = save_primes_to_file [3; 5] "b.txt" (save_primes_to_file [2] "a.txt" ∅).
Proof. apply (save_primes_to_file_commutes [2] [3; 5] "a.txt" "b.txt" ∅). discriminate. Defined.

(** ** The console *)

Lemma prints_append {A : Type} (g : A → string) (xs : list A) (out : string) :
  fold_left (λ out x, print (g x) out) xs out
  = out +:+ concat_str ((λ x, g x +:+ nl) <$> xs).
Proof.
  revert out. induction xs as [|x xs IH]; intros out; simpl.
  - by rewrite string_app_nil_r.
  - rewrite IH. unfold print. by rewrite !string_app_assoc.
Qed.

Lemma print_primes_columns (primes : list Z) (out : string) :
  primes ≠ [] →
  print_primes primes (PyStr "columns") out
  = out +:+ "Found " +:+ str_int (len primes) +:+ " prime numbers:" +:+ nl
        +:+ rows_text primes.
Proof.
  intros Hne. destruct primes as [|p primes]; [done|]. unfold print_primes.
  change (py_eq_str (PyStr "columns") "list") with false.
  change (py_eq_str (PyStr "columns") "columns") with true. cbv iota.
  rewrite (prints_append (λ i, format_row (py_slice (p :: primes) i (i + 10)))).
  unfold print. rewrite !string_app_assoc. do 5 f_equal.
  pose proof (slices_rows_of (p :: primes) (length (p :: primes)) 0
                ltac:(lia) ltac:(lia)) as Hrows.
  change (drop (Z.to_nat 0) (p :: primes)) with (p :: primes) in Hrows.
  unfold rows_text. rewrite <- Hrows, <- list_fmap_compose. done.
Qed.

(** X8. For a list that is not empty, the column format prints its own header
    line and then, line for line, the rows that [save_primes_to_file] writes
    below its header: the console and the file show the same table. *)
Theorem print_primes_columns_rows (primes : list Z) (out : string)
    (filename : string) (fs : gmap string string) :
  primes ≠ [] →
  print_primes primes (PyStr "columns") out
  = out +:+ "Found " +:+ str_int (len primes) +:+ " prime numbers:" +:+ nl
        +:+ rows_text primes ∧
  save_primes_to_file primes filename fs !! filename
  = Some ("Found " +:+ str_int (len primes) +:+ " prime numbers between 1 and 250: "
            +:+ nl +:+ nl +:+ rows_text primes).
Proof.
  intros Hne. split; [by apply print_primes_columns|].
  by rewrite save_primes_to_file_insert, lookup_insert_eq.
Qed.

Lemma print_primes_columns_rows_witness :
  print_primes [2; 3; 5] (PyStr "columns") EmptyString
  = EmptyString +:+ "Found " +:+ str_int (len [2; 3; 5]) +:+ " prime numbers:" +:+ nl
      +:+ rows_text [2; 3; 5].
Proof.
  apply (print_primes_columns_rows [2; 3; 5] EmptyString "results.txt" ∅).
  discriminate.
Defined.

(** ** [main] *)


(** ** The report determines the list *)

Lemma str_int_parse (z : Z) :
  NilZero.int_of_string (str_int z) = Some (Z.to_int z).
Proof.
  unfold str_int. apply NilZero.isi; destruct z; simpl; try discriminate;
    intros [=H]; by apply DecimalPos.Unsigned.to_uint_nonnil in H.
Qed.

Lemma str_int_inj : Inj (=) (=) str_int.
Proof.
  intros z1 z2 Heq. apply DecimalZ.to_int_inj.
  pose proof (str_int_parse z1) as H1. rewrite Heq, str_int_parse in H1. congruence.
Qed.

Lemma str_int_nonempty (z : Z) : str_int z ≠ EmptyString.
Proof. intros Heq. pose proof (str_int_parse z) as H. by rewrite Heq in H. Qed.

Lemma blank_free_uint (d : Decimal.uint) :
  blank_free (NilEmpty.string_of_uint d) = true.
Proof. induction d; simpl; done. Qed.

Lemma blank_free_str_int (z : Z) : blank_free (str_int z) = true.
Proof.
  unfold str_int, NilZero.string_of_int, NilZero.string_of_uint.
  destruct (Z.to_int z) as [d|d]; destruct d; simpl; try done;
    apply blank_free_uint.
Qed.

Lemma tokens_from_word (t cur s : string) :
  blank_free t = true → tokens_from cur (t +:+ s) = tokens_from (cur +:+ t) s.
Proof.
  revert cur. induction t as [|a t IH]; intros cur Ht.
  - by rewrite string_app_nil_r.
  - simpl in Ht. apply andb_true_iff in Ht as [Ha Ht].
    rewrite string_app_cons. simpl. apply negb_true_iff in Ha. rewrite Ha.
    rewrite IH by done. f_equal. by rewrite string_app_assoc.
Qed.

Lemma tokens_from_spaces (k : nat) (s : string) :
  tokens_from EmptyString (spaces k +:+ s) = tokens_from EmptyString s.
Proof.
  induction k as [|k IH]; [done|].
  change (spaces (S k) +:+ s) with (String " " (spaces k +:+ s)). exact IH.
Qed.

(** A padded word followed by white space is the next token. *)
Lemma tokens_field (k : nat) (t : string) (c : ascii) (s : string) :
  blank_free t = true → t ≠ EmptyString → Ascii.is_space c = true →
  tokens_from EmptyString (spaces k +:+ t +:+ String c s)
  = t :: tokens_from EmptyString s.
Proof.
  intros Ht Hne Hc. rewrite tokens_from_spaces, tokens_from_word by done.
  change (EmptyString +:+ t) with t. simpl. rewrite Hc. by destruct t.
Qed.

Lemma tokens_row (row : list Z) (s : string) :
  tokens_from EmptyString (format_row row +:+ nl +:+ s)
  = (str_int <$> row) ++ tokens_from EmptyString s.
Proof.
  unfold format_row. induction row as [|x row IH]; [done|].
  rewrite fmap_cons.
  assert (∀ rest, tokens_from EmptyString (format_6d x +:+ String " " rest)
                  = str_int x :: tokens_from EmptyString rest) as Hsp.
  { intros rest. unfold format_6d. rewrite string_app_assoc.
    apply tokens_field; [apply blank_free_str_int|apply str_int_nonempty|done]. }
  destruct row as [|y row].
  - simpl. unfold format_6d. rewrite string_app_assoc.
    apply tokens_field; [apply blank_free_str_int|apply str_int_nonempty|done].
  - change (join " " (format_6d x :: (format_6d <$> y :: row)))
      with (format_6d x +:+ " " +:+ join " " (format_6d <$> y :: row)).
    rewrite !string_app_assoc.
    change (" " +:+ ?r) with (String " " r).
    rewrite Hsp, IH. reflexivity.
Qed.

Lemma tokens_rows (rows : list (list Z)) :
  tokens (concat_str ((λ row, format_row row +:+ nl) <$> rows))
  = str_int <$> concat rows.
Proof.
  unfold tokens. induction rows as [|row rows IH]; [done|].
  rewrite fmap_cons. simpl. rewrite string_app_assoc, tokens_row, IH.
  by rewrite fmap_app.
Qed.

Lemma tokens_report (primes : list Z) :
  tokens (report_text primes)
  = ["Found"; str_int (len primes); "prime"; "numbers"; "between"; "1"; "and"; "250:"]
    ++ (str_int <$> primes).
Proof.
  rewrite <- (rows_of_concat 10 (length primes) primes) at 3 by lia.
  rewrite <- tokens_rows. unfold report_text, rows_text, tokens.
  set (R := concat_str _).
  change ("Found " +:+ ?r) with (spaces 0 +:+ "Found" +:+ String " " r).
  rewrite tokens_field by done.
  change (str_int (len primes) +:+ " prime numbers between 1 and 250: " +:+ ?r)
    with (spaces 0 +:+ str_int (len primes) +:+ String " "
            (spaces 0 +:+ "prime" +:+ String " "
            (spaces 0 +:+ "numbers" +:+ String " "
            (spaces 0 +:+ "between" +:+ String " "
            (spaces 0 +:+ "1" +:+ String " "
            (spaces 0 +:+ "and" +:+ String " "
            (spaces 0 +:+ "250:" +:+ String " " r))))))).
  rewrite tokens_field
    by (apply blank_free_str_int || apply str_int_nonempty || done).
  rewrite !tokens_field by done.
  done.
Qed.

(** X10. The report determines the list: if two calls of
    [save_primes_to_file] leave the same text in their files, they were given
    the same list.  Nothing is lost in the row layout. *)
Theorem save_primes_to_file_injective (primes1 primes2 : list Z)
    (filename1 filename2 : string) (fs1 fs2 : gmap string string) :
  save_primes_to_file primes1 filename1 fs1 !! filename1
  = save_primes_to_file primes2 filename2 fs2 !! filename2 →
  primes1 = primes2.
Proof.
  rewrite !save_primes_to_file_insert, !lookup_insert_eq.
  intros Htext%(inj Some). apply (f_equal tokens) in Htext. rewrite !tokens_report in Htext.
  apply (f_equal (drop 8)) in Htext. simpl in Htext.
  pose proof str_int_inj. by apply (inj (fmap str_int)) in Htext.
Qed.

Lemma save_primes_to_file_injective_witness : [2; 3; 5] = [2; 3; 5] :> list Z.
Proof.
  apply (save_primes_to_file_injective [2; 3; 5] [2; 3; 5]
           "a.txt" "b.txt" ∅ {[ "b.txt" := "old" ]}).
  vm_compute. reflexivity.
Defined.

(** ** Reusing a table *)

(** X11. A table built once serves every smaller query: for [2 <= N] and
    integer bounds [lo <= hi <= N], extracting [(lo, hi)] from the table of
    [create_sieve N] gives what [find_primes_in_range(lo, hi)] returns with a
    table of its own. *)
Theorem extract_from_larger_table (N lo hi : Z) :
  2 ≤ N → lo ≤ hi → hi ≤ N →
  ∃ table,
    create_sieve N = Ok table ∧
    extract_primes_from_sieve table lo hi
    = find_primes_in_range (PyInt lo) (PyInt hi).
Proof.
  intros HN Hlo Hhi. rewrite create_sieve_table by done.
  eexists. split; [done|].
  rewrite find_primes_in_range_valid by done. simpl.
  rewrite full_pipeline_trial_division, extract_primes_from_sieve_spec.
  unfold extract_spec. rewrite length_fmap, length_seqZ. f_equal.
  replace (Z.min (Z.of_nat (Z.to_nat (N + 1)) - 1) hi) with hi by lia.
  apply filter_ext_elem. intros i Hi%elem_of_seqZ.
  rewrite list_lookup_fmap, lookup_seqZ_lt by lia. simpl.
  replace (0 + Z.of_nat (Z.to_nat i)) with i by lia.
  unfold is_prime_entry. rewrite bool_decide_eq_true_2 by lia. simpl.
  split; congruence.
Qed.

Lemma extract_from_larger_table_witness :
  2 ≤ 30 ∧ 5 ≤ 20 ∧ 20 ≤ 30 ∧
  ∃ table,
    create_sieve 30 = Ok table ∧
    extract_primes_from_sieve table 5 20
    = find_primes_in_range (PyInt 5) (PyInt 20).
Proof.
  split; [lia|]. split; [lia|]. split; [lia|].
  apply (extract_from_larger_table 30 5 20); lia.
Defined.
